(** * UserSelection: the drag-rectangle selection controller of react-flow

    A shallow embedding of [src/components/UserSelection/index.tsx].

    The component keeps three refs ([prevSelectedNodesCount],
    [prevSelectedEdgesCount], [containerBounds]) and one piece of React state
    ([userSelectionRect]); it reads and writes the zustand store and calls the
    change handlers registered there.  The four mouse handlers are embedded as
    computations in a small state-and-log monad over that data.

    Each handler runs against the state left by the handler before it: React
    re-renders between two events, so that a handler sees the rectangle set by
    the previous one.

    JavaScript numbers are modelled as exact rationals ([Q]): rounding, NaN and
    the infinities are abstracted away.  Array lengths are [nat]. *)

From Stdlib Require Import QArith Qabs Qminmax List String Bool Arith Lia.
Import ListNotations.

Local Open Scope Q_scope.

(** ** Numbers *)

(** [a < b] on JavaScript numbers, as a boolean. *)
Definition Qlt_bool (a b : Q) : bool :=
  match a ?= b with Lt => true | _ => false end.

(** ** Types of the repository ([src/types], not among the sources at hand) *)

(** Modelled from the spec: [XYPosition], a point [{x, y}]. *)
Record XYPosition := { pos_x : Q; pos_y : Q }.

(** Modelled from the spec: [Rect], [{x, y, width, height}]. *)
Record Rect := { rect_x : Q; rect_y : Q; rect_width : Q; rect_height : Q }.

(** Modelled from the spec: [Transform], read as
    [screen = canvas * zoom + translate]. *)
Record Transform := { translateX : Q; translateY : Q; zoom : Q }.

(** Modelled from the spec: [Node] (the spec's Element): an id, a canvas
    position, dimensions that are absent until measured, and the [selected]
    flag owned by the store. *)
Record Node := {
  node_id : string;
  node_position : XYPosition;
  node_width : option Q;
  node_height : option Q;
  node_selected : bool
}.

(** Modelled from the spec: [Edge] (the spec's Connection). *)
Record Edge := {
  edge_id : string;
  edge_source : string;
  edge_target : string;
  edge_selected : bool
}.

(** Modelled from the spec: the change record [{id, selected}]; the source
    casts the same records to [NodeChange[]] and to [EdgeChange[]]. *)
Record SelectionChange := { change_id : string; change_selected : bool }.
Definition NodeChange := SelectionChange.
Definition EdgeChange := SelectionChange.

(** [KeyCode = string | Array<string>]. *)
Inductive KeyCode :=
| KeyString (k : string)
| KeyArray (ks : list string).

(** The prop type [KeyCode | null | boolean]. *)
Inductive SelectionKeyCode :=
| SKBoolean (b : bool)
| SKNull
| SKKey (k : KeyCode).

(** [typeof selectionKeyCode === 'boolean'] *)
Definition typeof_boolean (k : SelectionKeyCode) : bool :=
  match k with SKBoolean _ => true | _ => false end.

(** The part of a [DOMRect] the component reads, and the rest of its box. *)
Record DOMRect := { left : Q; top : Q; dom_width : Q; dom_height : Q }.

(** A React mouse event: the pointer position, and the bounding rectangle of
    the closest [.react-flow] ancestor of the target, which [onMouseDown]
    queries (the source asserts with [!] that this ancestor exists). *)
Record MouseEvent := {
  clientX : Q;
  clientY : Q;
  closest_react_flow_bounds : DOMRect
}.

(** lines 14-18 *)
Record SelectionRect := {
  startX : Q;
  startY : Q;
  x : Q;
  y : Q;
  width : Q;
  height : Q;
  draw : bool
}.

Definition toRect (r : SelectionRect) : Rect :=
  {| rect_x := x r; rect_y := y r; rect_width := width r; rect_height := height r |}.

(** A callback is an opaque handle; calling it is recorded in the log. *)
Definition Handler := nat.

(** lines 20-24.  [onClick] is tested for truthiness before it is called, so
    it may be absent. *)
Record UserSelectionProps := {
  selectionKeyPressed : bool;
  selectionKeyCode : SelectionKeyCode;
  onClick : option Handler
}.

(** The fields of [ReactFlowState] the component touches.  [nodeInternals] is
    a JavaScript [Map], iterated in insertion order: an association list. *)
Record ReactFlowState := {
  userSelectionActive : bool;
  nodesSelectionActive : bool;
  elementsSelectable : bool;
  nodeInternals : list (string * Node);
  edges : list Edge;
  transform : Transform;
  onNodesChange : option Handler;
  onEdgesChange : option Handler
}.

(** The argument of [store.setState]: a partial state. *)
Record StatePatch := {
  patch_userSelectionActive : option bool;
  patch_nodesSelectionActive : option bool
}.

Definition patched (o : option bool) (b : bool) : bool :=
  match o with Some v => v | None => b end.

Definition applyPatch (p : StatePatch) (s : ReactFlowState) : ReactFlowState :=
  {| userSelectionActive := patched (patch_userSelectionActive p) (userSelectionActive s);
     nodesSelectionActive := patched (patch_nodesSelectionActive p) (nodesSelectionActive s);
     elementsSelectable := elementsSelectable s;
     nodeInternals := nodeInternals s;
     edges := edges s;
     transform := transform s;
     onNodesChange := onNodesChange s;
     onEdgesChange := onEdgesChange s |}.

(** ** The component's own data *)

(** lines 50-53: the three refs and the state hook. *)
Record Component := {
  prevSelectedNodesCount : nat;
  prevSelectedEdgesCount : nat;
  containerBounds : option DOMRect;
  userSelectionRect : SelectionRect
}.

Record World := { component : Component; store : ReactFlowState }.

(** Calls that leave the component, in the order they are made.  The two
    [getSelectionChanges] entries record that a diff was computed; the others
    are the component's effects on its surroundings. *)
Inductive Call :=
| Call_onClick (h : Handler) (e : MouseEvent)
| Call_setState (p : StatePatch)
| Call_getSelectionChanges_nodes (items : list Node) (ids : list string)
| Call_getSelectionChanges_edges (items : list Edge) (ids : list string)
| Call_onNodesChange (h : Handler) (changes : list NodeChange)
| Call_onEdgesChange (h : Handler) (changes : list EdgeChange).

(** ** A state-and-log monad for the handlers *)

Definition M (A : Type) : Type := World -> A * World * list Call.

Definition ret {A} (a : A) : M A := fun w => (a, w, []).

Definition bind {A B} (m : M A) (k : A -> M B) : M B :=
  fun w =>
    let '(a, w1, log1) := m w in
    let '(b, w2, log2) := k a w1 in
    (b, w2, log1 ++ log2).

Declare Scope monad_scope.
Delimit Scope monad_scope with monad.
Notation "v <- m ;; k" := (bind m (fun v => k))
  (at level 61, m at next level, right associativity) : monad_scope.
Notation "m ;; k" := (bind m (fun _ => k))
  (at level 61, right associativity) : monad_scope.
Local Open Scope monad_scope.

Definition result_world {A} (r : A * World * list Call) : World := snd (fst r).
Definition result_log {A} (r : A * World * list Call) : list Call := snd r.

Definition readComponent : M Component := fun w => (component w, w, []).

Definition writeComponent (f : Component -> Component) : M unit :=
  fun w => (tt, {| component := f (component w); store := store w |}, []).

Definition logCall (c : Call) : M unit := fun w => (tt, w, [c]).

(** [setUserSelectionRect(r)] *)
Definition setUserSelectionRect (r : SelectionRect) : M unit :=
  writeComponent (fun c =>
    {| prevSelectedNodesCount := prevSelectedNodesCount c;
       prevSelectedEdgesCount := prevSelectedEdgesCount c;
       containerBounds := containerBounds c;
       userSelectionRect := r |}).

(** [prevSelectedNodesCount.current = n] *)
Definition set_prevSelectedNodesCount (n : nat) : M unit :=
  writeComponent (fun c =>
    {| prevSelectedNodesCount := n;
       prevSelectedEdgesCount := prevSelectedEdgesCount c;
       containerBounds := containerBounds c;
       userSelectionRect := userSelectionRect c |}).

(** [prevSelectedEdgesCount.current = n] *)
Definition set_prevSelectedEdgesCount (n : nat) : M unit :=
  writeComponent (fun c =>
    {| prevSelectedNodesCount := prevSelectedNodesCount c;
       prevSelectedEdgesCount := n;
       containerBounds := containerBounds c;
       userSelectionRect := userSelectionRect c |}).

(** [containerBounds.current = b] *)
Definition set_containerBounds (b : DOMRect) : M unit :=
  writeComponent (fun c =>
    {| prevSelectedNodesCount := prevSelectedNodesCount c;
       prevSelectedEdgesCount := prevSelectedEdgesCount c;
       containerBounds := Some b;
       userSelectionRect := userSelectionRect c |}).

(** [store.getState()] *)
Definition store_getState : M ReactFlowState := fun w => (store w, w, []).

(** [store.setState(p)] *)
Definition store_setState (p : StatePatch) : M unit :=
  fun w => (tt, {| component := component w; store := applyPatch p (store w) |},
            [Call_setState p]).

(** [h?.(changes)] for the two change handlers, and [if (onClick) onClick(e)] *)
Definition call_onNodesChange (h : option Handler) (changes : list NodeChange) : M unit :=
  match h with Some f => logCall (Call_onNodesChange f changes) | None => ret tt end.

Definition call_onEdgesChange (h : option Handler) (changes : list EdgeChange) : M unit :=
  match h with Some f => logCall (Call_onEdgesChange f changes) | None => ret tt end.

Definition call_onClick (h : option Handler) (e : MouseEvent) : M unit :=
  match h with Some f => logCall (Call_onClick f e) | None => ret tt end.

(** [changes.length] as a condition *)
Definition nonempty {A} (l : list A) : bool :=
  match l with [] => false | _ :: _ => true end.

(** ** The component *)

(** lines 26-31 *)
Definition getMousePosition (event : MouseEvent) (bounds : DOMRect) : XYPosition :=
  {| pos_x := clientX event - left bounds;
     pos_y := clientY event - top bounds |}.

(** lines 38-46 *)
Definition initialRect : SelectionRect :=
  {| startX := 0; startY := 0; x := 0; y := 0; width := 0; height := 0; draw := false |}.

Definition initialComponent : Component :=
  {| prevSelectedNodesCount := 0;
     prevSelectedEdgesCount := 0;
     containerBounds := None;
     userSelectionRect := initialRect |}.

(** lines 58-65 *)
Definition resetUserSelection : M unit :=
  setUserSelectionRect initialRect ;;
  store_setState {| patch_userSelectionActive := Some false;
                    patch_nodesSelectionActive := None |} ;;
  set_prevSelectedNodesCount 0 ;;
  set_prevSelectedEdgesCount 0.

(** lines 67-85 *)
Definition onMouseDown (props : UserSelectionProps) (event : MouseEvent) : M unit :=
  call_onClick (onClick props) event ;;
  set_containerBounds (closest_react_flow_bounds event) ;;
  let mousePos := getMousePosition event (closest_react_flow_bounds event) in
  setUserSelectionRect
    {| width := 0;
       height := 0;
       startX := pos_x mousePos;
       startY := pos_y mousePos;
       x := pos_x mousePos;
       y := pos_y mousePos;
       draw := true |} ;;
  store_setState {| patch_userSelectionActive := Some true;
                    patch_nodesSelectionActive := Some false |}.

(** [!containerBounds.current]: a [DOMRect] object is truthy. *)
Definition undefined_bounds (b : option DOMRect) : bool :=
  match b with Some _ => false | None => true end.

(** lines 88-90: does [onMouseMove] return before doing anything? *)
Definition moveReturnsEarly (props : UserSelectionProps) (c : Component) : bool :=
  if typeof_boolean (selectionKeyCode props) then
    negb (draw (userSelectionRect c)) || undefined_bounds (containerBounds c)
  else
    negb (selectionKeyPressed props) || negb (draw (userSelectionRect c))
      || undefined_bounds (containerBounds c).

(** lines 92-102: the rectangle spanned by the anchor of [r] and [mousePos].
    [r.startX ?? 0] is [r.startX], a number being neither null nor
    undefined. *)
Definition nextUserSelectRect (r : SelectionRect) (mousePos : XYPosition) : SelectionRect :=
  let startX' := startX r in
  let startY' := startY r in
  {| startX := startX r;
     startY := startY r;
     x := if Qlt_bool (pos_x mousePos) startX' then pos_x mousePos else startX';
     y := if Qlt_bool (pos_y mousePos) startY' then pos_y mousePos else startY';
     width := Qabs (pos_x mousePos - startX');
     height := Qabs (pos_y mousePos - startY');
     draw := draw r |}.

Section Controller.

(** The helpers imported from [utils/graph] and [utils/changes]; their
    definitions are not among the sources at hand, and the handlers are
    embedded over any functions of these types. *)
Variable getNodesInside :
  list (string * Node) -> Rect -> Transform -> bool -> bool -> list Node.
Variable getConnectedEdges : list Node -> list Edge -> list Edge.
Variable getSelectionChanges_nodes : list Node -> list string -> list SelectionChange.
Variable getSelectionChanges_edges : list Edge -> list string -> list SelectionChange.

(** lines 104-108: the ids a move selects, given the next rectangle. *)
Definition selectedNodesOf (s : ReactFlowState) (next : SelectionRect) : list Node :=
  getNodesInside (nodeInternals s) (toRect next) (transform s) false true.

Definition selectedNodeIdsOf (s : ReactFlowState) (next : SelectionRect) : list string :=
  map node_id (selectedNodesOf s next).

Definition selectedEdgeIdsOf (s : ReactFlowState) (next : SelectionRect) : list string :=
  map edge_id (getConnectedEdges (selectedNodesOf s next) (edges s)).

(** lines 87-127 *)
Definition onMouseMove (props : UserSelectionProps) (event : MouseEvent) : M unit :=
  c <- readComponent ;;
  if moveReturnsEarly props c then ret tt else
  match containerBounds c with
  | None => ret tt
  | Some bounds =>
    let mousePos := getMousePosition event bounds in
    let next := nextUserSelectRect (userSelectionRect c) mousePos in
    s <- store_getState ;;
    let nodes := map snd (nodeInternals s) in
    let selectedNodes := getNodesInside (nodeInternals s) (toRect next) (transform s) false true in
    let selectedEdgeIds := map edge_id (getConnectedEdges selectedNodes (edges s)) in
    let selectedNodeIds := map node_id selectedNodes in
    c1 <- readComponent ;;
    (if negb (prevSelectedNodesCount c1 =? List.length selectedNodeIds)%nat then
       set_prevSelectedNodesCount (List.length selectedNodeIds) ;;
       logCall (Call_getSelectionChanges_nodes nodes selectedNodeIds) ;;
       let changes := getSelectionChanges_nodes nodes selectedNodeIds in
       if nonempty changes then call_onNodesChange (onNodesChange s) changes else ret tt
     else ret tt) ;;
    c2 <- readComponent ;;
    (if negb (prevSelectedEdgesCount c2 =? List.length selectedEdgeIds)%nat then
       set_prevSelectedEdgesCount (List.length selectedEdgeIds) ;;
       logCall (Call_getSelectionChanges_edges (edges s) selectedEdgeIds) ;;
       let changes := getSelectionChanges_edges (edges s) selectedEdgeIds in
       if nonempty changes then call_onEdgesChange (onEdgesChange s) changes else ret tt
     else ret tt) ;;
    setUserSelectionRect next
  end.

(** lines 129-133 *)
Definition onMouseUp : M unit :=
  c <- readComponent ;;
  store_setState {| patch_userSelectionActive := None;
                    patch_nodesSelectionActive := Some (0 <? prevSelectedNodesCount c)%nat |} ;;
  resetUserSelection.

(** lines 135-139 *)
Definition onMouseLeave : M unit :=
  store_setState {| patch_userSelectionActive := None;
                    patch_nodesSelectionActive := Some false |} ;;
  resetUserSelection.

End Controller.

(** ** The imported helpers, as the spec describes them

    Used to instantiate the handlers on concrete inputs. *)

Inductive Mode := Partial | FullContainment.

(** Modelled from the spec: [toCanvasRect] of the Geometry module (the inverse
    of the transform, applied to a screen rectangle); it is the first step of
    [getNodesInside], whose source is missing. *)
Definition toCanvasRect (screenRect : Rect) (t : Transform) : Rect :=
  {| rect_x := (rect_x screenRect - translateX t) / zoom t;
     rect_y := (rect_y screenRect - translateY t) / zoom t;
     rect_width := rect_width screenRect / zoom t;
     rect_height := rect_height screenRect / zoom t |}.

(** Two intervals [lo1, hi1] and [lo2, hi2] share more than a boundary. *)
Definition intervalsOverlap (lo1 hi1 lo2 hi2 : Q) : bool :=
  Qlt_bool lo1 hi2 && Qlt_bool lo2 hi1.

(** The interval [lo1, hi1] lies within [lo2, hi2]. *)
Definition intervalWithin (lo1 hi1 lo2 hi2 : Q) : bool :=
  Qle_bool lo2 lo1 && Qle_bool hi1 hi2.

(** Modelled from the spec: the per-element test of [elementsInside]; an
    element without measured dimensions never passes. *)
Definition elementInside (canvasRect : Rect) (mode : Mode) (n : Node) : bool :=
  match node_width n, node_height n with
  | Some w, Some h =>
    let px := pos_x (node_position n) in
    let py := pos_y (node_position n) in
    let rx := rect_x canvasRect in
    let ry := rect_y canvasRect in
    match mode with
    | Partial =>
      intervalsOverlap px (px + w) rx (rx + rect_width canvasRect)
      && intervalsOverlap py (py + h) ry (ry + rect_height canvasRect)
    | FullContainment =>
      intervalWithin px (px + w) rx (rx + rect_width canvasRect)
      && intervalWithin py (py + h) ry (ry + rect_height canvasRect)
    end
  | _, _ => false
  end.

(** Modelled from the spec: [elementsInside] of the Geometry module, missing
    from the sources; it returns the elements, whose ids the caller takes. *)
Definition elementsInside (elements : list Node) (canvasRect : Rect) (mode : Mode)
  : list Node :=
  filter (elementInside canvasRect mode) elements.

(** Modelled from the spec: [getNodesInside] of [utils/graph], missing from the
    sources, as [toCanvasRect] followed by [elementsInside].  The spec names a
    mode and the call site passes two positional booleans; how the fourth
    argument selects the mode is the parameter [modeOf], and the spec says
    nothing of the fifth. *)
Definition getNodesInside_spec (modeOf : bool -> Mode)
    (nodeInternals : list (string * Node)) (rect : Rect) (t : Transform)
    (arg4 arg5 : bool) : list Node :=
  elementsInside (map snd nodeInternals) (toCanvasRect rect t) (modeOf arg4).

(** The fourth argument read as "full containment required". *)
Definition fullWhenSet (b : bool) : Mode := if b then FullContainment else Partial.

(** The fourth argument read as "partial overlap suffices". *)
Definition partialWhenSet (b : bool) : Mode := if b then Partial else FullContainment.

Definition memberOf (ids : list string) (i : string) : bool :=
  existsb (String.eqb i) ids.

(** Modelled from the spec: [connectedConnections] of the Connectivity module
    ([getConnectedEdges] of [utils/graph], missing from the sources): the
    edges with the source or the target among the given nodes, in order. *)
Definition getConnectedEdges_spec (nodes : list Node) (es : list Edge) : list Edge :=
  let ids := map node_id nodes in
  filter (fun e => memberOf ids (edge_source e) || memberOf ids (edge_target e)) es.

(** Modelled from the spec: [computeSelectionChanges] of the Diff module
    ([getSelectionChanges] of [utils/changes], missing from the sources), over
    any items with an id and a selected flag. *)
Definition getSelectionChanges_spec {A} (id : A -> string) (selected : A -> bool)
    (items : list A) (selectedIds : list string) : list SelectionChange :=
  flat_map (fun item =>
    let willBeSelected := memberOf selectedIds (id item) in
    if willBeSelected && negb (selected item) then
      [{| change_id := id item; change_selected := true |}]
    else if selected item && negb willBeSelected then
      [{| change_id := id item; change_selected := false |}]
    else []) items.

(** The mouse-move handler over the helpers of the spec. *)
Definition onMouseMove_spec (modeOf : bool -> Mode) : UserSelectionProps -> MouseEvent -> M unit :=
  onMouseMove (getNodesInside_spec modeOf) getConnectedEdges_spec
    (getSelectionChanges_spec node_id node_selected)
    (getSelectionChanges_spec edge_id edge_selected).

(** ** Sequences of inputs *)

Section Runs.

Variable getNodesInside :
  list (string * Node) -> Rect -> Transform -> bool -> bool -> list Node.
Variable getConnectedEdges : list Node -> list Edge -> list Edge.
Variable getSelectionChanges_nodes : list Node -> list string -> list SelectionChange.
Variable getSelectionChanges_edges : list Edge -> list string -> list SelectionChange.

Let move := onMouseMove getNodesInside getConnectedEdges
              getSelectionChanges_nodes getSelectionChanges_edges.

(** What can happen to the mounted component: the four mouse events, each
    under the props of the render that installed the handler, and a change
    of the store made by the rest of the application. *)
Inductive Input :=
| MouseDown (props : UserSelectionProps) (event : MouseEvent)
| MouseMove (props : UserSelectionProps) (event : MouseEvent)
| MouseUp
| MouseLeave
| StoreChange (s : ReactFlowState).

Definition replaceStore (s : ReactFlowState) : M unit :=
  fun w => (tt, {| component := component w; store := s |}, []).

Definition handle (i : Input) : M unit :=
  match i with
  | MouseDown props event => onMouseDown props event
  | MouseMove props event => move props event
  | MouseUp => onMouseUp
  | MouseLeave => onMouseLeave
  | StoreChange s => replaceStore s
  end.

Fixpoint run (inputs : list Input) : M unit :=
  match inputs with
  | [] => ret tt
  | i :: rest => handle i ;; run rest
  end.

(** Inputs that occur while a drag is under way. *)
Definition duringDrag (i : Input) : bool :=
  match i with
  | MouseMove _ _ | StoreChange _ => true
  | _ => false
  end.

(** Inputs other than a press. *)
Definition notPress (i : Input) : bool :=
  match i with
  | MouseDown _ _ => false
  | _ => true
  end.

(** One tick of a drag: the store as the tick finds it, then a mouse move. *)
Record Tick := {
  tick_store : ReactFlowState;
  tick_props : UserSelectionProps;
  tick_event : MouseEvent
}.

(** What a processed tick computed and called. *)
Record Processed := {
  nodeIds : list string;
  edgeIds : list string;
  calls : list Call
}.

(** The ticks of a drag that [onMouseMove] does not return early from, in
    order, each with the id lists it computed (lines 106-108) and its log. *)
Fixpoint drag (w : World) (ticks : list Tick) : list Processed :=
  match ticks with
  | [] => []
  | t :: rest =>
    let w1 := {| component := component w; store := tick_store t |} in
    let r := move (tick_props t) (tick_event t) w1 in
    match moveReturnsEarly (tick_props t) (component w1), containerBounds (component w1) with
    | false, Some bounds =>
      let next := nextUserSelectRect (userSelectionRect (component w1))
                    (getMousePosition (tick_event t) bounds) in
      {| nodeIds := selectedNodeIdsOf getNodesInside (tick_store t) next;
         edgeIds := selectedEdgeIdsOf getNodesInside getConnectedEdges (tick_store t) next;
         calls := result_log r |} :: drag (result_world r) rest
    | _, _ => drag (result_world r) rest
    end
  end.

(** The log of the node half of a processed move (lines 110-116), given the
    count the ref held and the ids just computed; likewise for the edges
    (lines 118-124). *)
Definition nodeSideCalls (s : ReactFlowState) (prev : nat) (ids : list string) : list Call :=
  let nodes := map snd (nodeInternals s) in
  if negb (prev =? List.length ids)%nat then
    Call_getSelectionChanges_nodes nodes ids ::
    (if nonempty (getSelectionChanges_nodes nodes ids) then
       match onNodesChange s with
       | Some f => [Call_onNodesChange f (getSelectionChanges_nodes nodes ids)]
       | None => []
       end
     else [])
  else [].

Definition edgeSideCalls (s : ReactFlowState) (prev : nat) (ids : list string) : list Call :=
  if negb (prev =? List.length ids)%nat then
    Call_getSelectionChanges_edges (edges s) ids ::
    (if nonempty (getSelectionChanges_edges (edges s) ids) then
       match onEdgesChange s with
       | Some f => [Call_onEdgesChange f (getSelectionChanges_edges (edges s) ids)]
       | None => []
       end
     else [])
  else [].

End Runs.

(** Classification of logged calls. *)
Definition nodeCategory (c : Call) : bool :=
  match c with
  | Call_getSelectionChanges_nodes _ _ | Call_onNodesChange _ _ => true
  | _ => false
  end.

Definition edgeCategory (c : Call) : bool :=
  match c with
  | Call_getSelectionChanges_edges _ _ | Call_onEdgesChange _ _ => true
  | _ => false
  end.

(** Calls with an effect outside the component: store writes and callbacks. *)
Definition externalEffect (c : Call) : bool :=
  match c with
  | Call_onClick _ _ | Call_setState _
  | Call_onNodesChange _ _ | Call_onEdgesChange _ _ => true
  | _ => false
  end.

Definition changeBatch (c : Call) : bool :=
  match c with
  | Call_onNodesChange _ _ | Call_onEdgesChange _ _ => true
  | _ => false
  end.

(** The invariant of the selection rectangle. *)
Definition rectInvariant (r : SelectionRect) : Prop :=
  0 <= width r /\ 0 <= height r /\ x r <= startX r /\ y r <= startY r.

Definition initialWorld (s : ReactFlowState) : World :=
  {| component := initialComponent; store := s |}.

(** ** The claims of the specification that the code does not meet, as stated *)

(** "On a pointer-leave the nodes-selection-active flag is set to true exactly
    when the last recorded selected-element count is greater than zero." *)
Definition leaveSignalsByCount (w : World) : Prop :=
  nodesSelectionActive (store (result_world (onMouseLeave w))) = true
  <-> (0 < prevSelectedNodesCount (component w))%nat.

(** "After the handler [h] the cached container bounds are cleared." *)
Definition boundsClearedBy (h : M unit) (w : World) : Prop :=
  containerBounds (component (result_world (h w))) = None.

(** ** A concrete drag

    Two measured 10x10 nodes, [a] at canvas (0,0) and [b] at canvas (100,0),
    joined by one edge; the viewport is translated by (10,10) at zoom 1; the
    container's box starts at (100,50) on the screen. *)

Definition node_a : Node :=
  {| node_id := "a"; node_position := {| pos_x := 0; pos_y := 0 |};
     node_width := Some 10; node_height := Some 10; node_selected := false |}.

Definition node_b : Node :=
  {| node_id := "b"; node_position := {| pos_x := 100; pos_y := 0 |};
     node_width := Some 10; node_height := Some 10; node_selected := false |}.

Definition edge_ab : Edge :=
  {| edge_id := "a-b"; edge_source := "a"; edge_target := "b"; edge_selected := false |}.

Definition demoStore : ReactFlowState :=
  {| userSelectionActive := false;
     nodesSelectionActive := true;
     elementsSelectable := true;
     nodeInternals := [("a"%string, node_a); ("b"%string, node_b)];
     edges := [edge_ab];
     transform := {| translateX := 10; translateY := 10; zoom := 1 |};
     onNodesChange := Some 1%nat;
     onEdgesChange := Some 2%nat |}.

Definition demoBounds : DOMRect :=
  {| left := 100; top := 50; dom_width := 800; dom_height := 600 |}.

Definition keyHeld : UserSelectionProps :=
  {| selectionKeyPressed := true;
     selectionKeyCode := SKKey (KeyString "Shift");
     onClick := Some 0%nat |}.

Definition keyReleased : UserSelectionProps :=
  {| selectionKeyPressed := false;
     selectionKeyCode := SKKey (KeyString "Shift");
     onClick := Some 0%nat |}.

Definition alwaysOn : UserSelectionProps :=
  {| selectionKeyPressed := false;
     selectionKeyCode := SKBoolean true;
     onClick := None |}.

Definition pointerAt (cx cy : Q) : MouseEvent :=
  {| clientX := cx; clientY := cy; closest_react_flow_bounds := demoBounds |}.

(** Press at canvas (50,-5), between the two nodes. *)
Definition pressEvent : MouseEvent := pointerAt 160 55.
(** Canvas (-5,15): the rectangle (-5,-5)-(50,15) encloses [a] only. *)
Definition overA : MouseEvent := pointerAt 105 75.
(** Canvas (115,15): the rectangle (50,-5)-(115,15) encloses [b] only. *)
Definition overB : MouseEvent := pointerAt 225 75.

Definition pressed : World :=
  result_world (onMouseDown keyHeld pressEvent (initialWorld demoStore)).

(** The store after the application has applied the changes of the first
    tick: [a] and the edge are selected. *)
Definition demoStoreA : ReactFlowState :=
  {| userSelectionActive := true;
     nodesSelectionActive := false;
     elementsSelectable := true;
     nodeInternals :=
       [("a"%string,
         {| node_id := "a"; node_position := {| pos_x := 0; pos_y := 0 |};
            node_width := Some 10; node_height := Some 10; node_selected := true |});
        ("b"%string, node_b)];
     edges := [{| edge_id := "a-b"; edge_source := "a"; edge_target := "b";
                  edge_selected := true |}];
     transform := {| translateX := 10; translateY := 10; zoom := 1 |};
     onNodesChange := Some 1%nat;
     onEdgesChange := Some 2%nat |}.

Definition demoTicks : list Tick :=
  [ {| tick_store := store pressed; tick_props := keyHeld; tick_event := overA |};
    {| tick_store := demoStoreA; tick_props := keyHeld; tick_event := overB |} ].

(** The world after the press and the first tick, [a] being selected. *)
Definition draggedOverA : World :=
  result_world (onMouseMove_spec fullWhenSet keyHeld overA pressed).

(** A node that straddles the right edge of the rectangle (-5,-5)-(50,15). *)
Definition node_c : Node :=
  {| node_id := "c"; node_position := {| pos_x := 45; pos_y := 0 |};
     node_width := Some 10; node_height := Some 10; node_selected := false |}.

(** The same rectangle over [a] and the straddling [c]. *)
Definition straddleStore : ReactFlowState :=
  {| userSelectionActive := true;
     nodesSelectionActive := false;
     elementsSelectable := true;
     nodeInternals := [("a"%string, node_a); ("c"%string, node_c)];
     edges := [];
     transform := {| translateX := 10; translateY := 10; zoom := 1 |};
     onNodesChange := Some 1%nat;
     onEdgesChange := Some 2%nat |}.

(** The processed ticks of the concrete drag. *)
Definition demoDrag : list Processed :=
  drag (getNodesInside_spec fullWhenSet) getConnectedEdges_spec
    (getSelectionChanges_spec node_id node_selected)
    (getSelectionChanges_spec edge_id edge_selected)
    pressed demoTicks.

(** What the two ticks of the concrete drag compute and call. *)
Definition tickOverA : Processed :=
  {| nodeIds := ["a"%string];
     edgeIds := ["a-b"%string];
     calls :=
       [Call_getSelectionChanges_nodes [node_a; node_b] ["a"%string];
        Call_onNodesChange 1%nat [{| change_id := "a"; change_selected := true |}];
        Call_getSelectionChanges_edges [edge_ab] ["a-b"%string];
        Call_onEdgesChange 2%nat [{| change_id := "a-b"; change_selected := true |}]] |}.

Definition tickOverB : Processed :=
  {| nodeIds := ["b"%string]; edgeIds := ["a-b"%string]; calls := [] |}.

(** The concrete drag as a sequence of inputs. *)
Definition demoRun : list Input -> M unit :=
  run (getNodesInside_spec fullWhenSet) getConnectedEdges_spec
    (getSelectionChanges_spec node_id node_selected)
    (getSelectionChanges_spec edge_id edge_selected).

(** The world after the drag over [a] has been released. *)
Definition released : World := result_world (onMouseUp draggedOverA).

(** Two ticks that stay between the two nodes, over the store in which [a]
    and the edge are already selected: the rectangles (50,-5)-(50,-5) and
    (50,-5)-(60,0) touch no node. *)
Definition emptyTicks : list Tick :=
  [ {| tick_store := demoStoreA; tick_props := keyHeld; tick_event := pressEvent |};
    {| tick_store := demoStoreA; tick_props := keyHeld; tick_event := pointerAt 170 60 |} ].

Definition emptyDrag : list Processed :=
  drag (getNodesInside_spec fullWhenSet) getConnectedEdges_spec
    (getSelectionChanges_spec node_id node_selected)
    (getSelectionChanges_spec edge_id edge_selected)
    pressed emptyTicks.

(** A whole interaction: press, two moves, release. *)
Definition demoInteraction : list Input :=
  [MouseDown keyHeld pressEvent; MouseMove keyHeld overA;
   MouseMove keyHeld overB; MouseUp].

(** ** What the component renders *)

(** line 56 *)
Definition renderUserSelectionPane (props : UserSelectionProps) (s : ReactFlowState) : bool :=
  userSelectionActive s || selectionKeyPressed props.

(** lines 156-160: the inline style of the selection rectangle.  The transform
    string [translate(Xpx, Ypx)] is kept as its two numbers. *)
Record SelectionStyle := {
  style_width : Q;
  style_height : Q;
  translate_x : Q;
  translate_y : Q
}.

(** lines 145-164: the pane, which always carries the four handlers, with its
    class name and the selection rectangle it may contain. *)
Record PaneElement := {
  pane_className : string;
  pane_selection : option SelectionStyle
}.

(** lines 141-164: [None] when the component returns null. *)
Definition render (props : UserSelectionProps) (s : ReactFlowState) (c : Component)
  : option PaneElement :=
  if negb (typeof_boolean (selectionKeyCode props))
     && (negb (elementsSelectable s) || negb (renderUserSelectionPane props s))
  then None
  else
    Some
      {| pane_className :=
           String.append "react-flow__selectionpane react-flow__container"
             (if userSelectionActive s then " active" else "");
         pane_selection :=
           if draw (userSelectionRect c) then
             Some {| style_width := width (userSelectionRect c);
                     style_height := height (userSelectionRect c);
                     translate_x := x (userSelectionRect c);
                     translate_y := y (userSelectionRect c) |}
           else None |}.

(** ** Further notions for the properties *)

(** Inputs that come from the component's own handlers. *)
Definition notStoreChange (i : Input) : bool :=
  match i with
  | StoreChange _ => false
  | _ => true
  end.

(** Either the component is idle, with the rectangle and the counters at
    their initial values, or it is drawing, with the container box cached. *)
Definition idleOrAnchored (c : Component) : Prop :=
  (draw (userSelectionRect c) = false ->
   userSelectionRect c = initialRect
   /\ prevSelectedNodesCount c = 0%nat /\ prevSelectedEdgesCount c = 0%nat)
  /\ (draw (userSelectionRect c) = true -> containerBounds c <> None).



(** A change batch that is not empty and goes to the handler the store
    holds. *)
Definition wellAddressed (s : ReactFlowState) (c : Call) : Prop :=
  match c with
  | Call_onNodesChange h changes => changes <> [] /\ onNodesChange s = Some h
  | Call_onEdgesChange h changes => changes <> [] /\ onEdgesChange s = Some h
  | _ => True
  end.

(** * Properties *)

Section Facts.

Variable getNodesInside :
  list (string * Node) -> Rect -> Transform -> bool -> bool -> list Node.
Variable getConnectedEdges : list Node -> list Edge -> list Edge.
Variable getSelectionChanges_nodes : list Node -> list string -> list SelectionChange.
Variable getSelectionChanges_edges : list Edge -> list string -> list SelectionChange.

Let move := onMouseMove getNodesInside getConnectedEdges
              getSelectionChanges_nodes getSelectionChanges_edges.
Let nodeIdsOf := selectedNodeIdsOf getNodesInside.
Let edgeIdsOf := selectedEdgeIdsOf getNodesInside getConnectedEdges.
Let handleI := handle getNodesInside getConnectedEdges
                 getSelectionChanges_nodes getSelectionChanges_edges.
Let runI := run getNodesInside getConnectedEdges
              getSelectionChanges_nodes getSelectionChanges_edges.
Let dragI := drag getNodesInside getConnectedEdges
               getSelectionChanges_nodes getSelectionChanges_edges.

(** ** Numbers *)

Lemma Qlt_bool_iff (a b : Q) : Qlt_bool a b = true <-> a < b.
Proof.
  unfold Qlt_bool. rewrite Qlt_alt.
  destruct (a ?= b); split; congruence.
Qed.

(** The conditional of lines 98-99 is the minimum. *)
Lemma conditional_is_Qmin (start current : Q) :
  (if Qlt_bool current start then current else start) = Qmin start current.
Proof.
  unfold Qlt_bool, Qmin, GenericMinMax.gmin.
  rewrite <- (Qcompare_antisym start current).
  destruct (start ?= current); reflexivity.
Qed.

Lemma conditional_le_start (start current : Q) :
  (if Qlt_bool current start then current else start) <= start.
Proof.
  destruct (Qlt_bool current start) eqn:E.
  - apply Qlt_le_weak, Qlt_bool_iff, E.
  - apply Qle_refl.
Qed.

(** ** The handlers, one at a time *)

(** ** The monad *)

Lemma bind_step {A B} (m : M A) (k : A -> M B) w a w1 log1 :
  m w = (a, w1, log1) ->
  bind m k w = let '(b, w2, log2) := k a w1 in (b, w2, log1 ++ log2).
Proof. intros H1. unfold bind. rewrite H1. reflexivity. Qed.

(** Steps through the next bind of a handler applied to a world, the first
    computation being a primitive. *)
Ltac step_bind := erewrite bind_step by reflexivity; cbv beta zeta.

Lemma onMouseMove_returns_early props event w :
  moveReturnsEarly props (component w) = true ->
  move props event w = (tt, w, []).
Proof.
  intro E. unfold move, onMouseMove, bind at 1, readComponent.
  rewrite E. reflexivity.
Qed.

Lemma moveReturnsEarly_false props c :
  moveReturnsEarly props c = false ->
  draw (userSelectionRect c) = true /\ exists b, containerBounds c = Some b.
Proof.
  unfold moveReturnsEarly, undefined_bounds.
  destruct (typeof_boolean (selectionKeyCode props)), (selectionKeyPressed props),
    (draw (userSelectionRect c)), (containerBounds c);
    simpl; intro; try discriminate; eauto.
Qed.

(** Lines 110-116 on their own. *)
Lemma node_half (s : ReactFlowState) (ids : list string) (w : World) :
  (if negb (prevSelectedNodesCount (component w) =? List.length ids)%nat then
     set_prevSelectedNodesCount (List.length ids) ;;
     logCall (Call_getSelectionChanges_nodes (map snd (nodeInternals s)) ids) ;;
     let changes := getSelectionChanges_nodes (map snd (nodeInternals s)) ids in
     if nonempty changes then call_onNodesChange (onNodesChange s) changes else ret tt
   else ret tt) w =
  (tt,
   {| component :=
        {| prevSelectedNodesCount := List.length ids;
           prevSelectedEdgesCount := prevSelectedEdgesCount (component w);
           containerBounds := containerBounds (component w);
           userSelectionRect := userSelectionRect (component w) |};
      store := store w |},
   nodeSideCalls getSelectionChanges_nodes s (prevSelectedNodesCount (component w)) ids).
Proof.
  unfold nodeSideCalls.
  destruct w as [[pn pe cb r] st]; cbn [component store prevSelectedNodesCount
    prevSelectedEdgesCount containerBounds userSelectionRect].
  destruct (Nat.eqb_spec pn (List.length ids)) as [-> | _]; cbn [negb].
  - reflexivity.
  - step_bind. step_bind.
    destruct (nonempty _); [ destruct (onNodesChange s) | ]; reflexivity.
Qed.

(** Lines 118-124 on their own. *)
Lemma edge_half (s : ReactFlowState) (ids : list string) (w : World) :
  (if negb (prevSelectedEdgesCount (component w) =? List.length ids)%nat then
     set_prevSelectedEdgesCount (List.length ids) ;;
     logCall (Call_getSelectionChanges_edges (edges s) ids) ;;
     let changes := getSelectionChanges_edges (edges s) ids in
     if nonempty changes then call_onEdgesChange (onEdgesChange s) changes else ret tt
   else ret tt) w =
  (tt,
   {| component :=
        {| prevSelectedNodesCount := prevSelectedNodesCount (component w);
           prevSelectedEdgesCount := List.length ids;
           containerBounds := containerBounds (component w);
           userSelectionRect := userSelectionRect (component w) |};
      store := store w |},
   edgeSideCalls getSelectionChanges_edges s (prevSelectedEdgesCount (component w)) ids).
Proof.
  unfold edgeSideCalls.
  destruct w as [[pn pe cb r] st]; cbn [component store prevSelectedNodesCount
    prevSelectedEdgesCount containerBounds userSelectionRect].
  destruct (Nat.eqb_spec pe (List.length ids)) as [-> | _]; cbn [negb].
  - reflexivity.
  - step_bind. step_bind.
    destruct (nonempty _); [ destruct (onEdgesChange s) | ]; reflexivity.
Qed.

(** The whole effect of a move that is not returned from early. *)
Lemma onMouseMove_processed props event w bounds :
  moveReturnsEarly props (component w) = false ->
  containerBounds (component w) = Some bounds ->
  let next := nextUserSelectRect (userSelectionRect (component w))
                (getMousePosition event bounds) in
  move props event w =
  (tt,
   {| component :=
        {| prevSelectedNodesCount := List.length (nodeIdsOf (store w) next);
           prevSelectedEdgesCount := List.length (edgeIdsOf (store w) next);
           containerBounds := Some bounds;
           userSelectionRect := next |};
      store := store w |},
   nodeSideCalls getSelectionChanges_nodes (store w)
     (prevSelectedNodesCount (component w)) (nodeIdsOf (store w) next)
   ++ edgeSideCalls getSelectionChanges_edges (store w)
        (prevSelectedEdgesCount (component w)) (edgeIdsOf (store w) next)).
Proof.
  intros E B next.
  unfold move, onMouseMove.
  step_bind. rewrite E, B.
  step_bind. step_bind.
  erewrite bind_step by apply node_half.
  step_bind.
  erewrite bind_step by apply edge_half.
  cbn. rewrite B, app_nil_r. reflexivity.
Qed.

(** ** The other three handlers *)

Lemma onMouseDown_result props event w :
  onMouseDown props event w =
  (tt,
   {| component :=
        {| prevSelectedNodesCount := prevSelectedNodesCount (component w);
           prevSelectedEdgesCount := prevSelectedEdgesCount (component w);
           containerBounds := Some (closest_react_flow_bounds event);
           userSelectionRect :=
             {| startX := clientX event - left (closest_react_flow_bounds event);
                startY := clientY event - top (closest_react_flow_bounds event);
                x := clientX event - left (closest_react_flow_bounds event);
                y := clientY event - top (closest_react_flow_bounds event);
                width := 0; height := 0; draw := true |} |};
      store :=
        applyPatch {| patch_userSelectionActive := Some true;
                      patch_nodesSelectionActive := Some false |} (store w) |},
   match onClick props with Some h => [Call_onClick h event] | None => [] end
   ++ [Call_setState {| patch_userSelectionActive := Some true;
                        patch_nodesSelectionActive := Some false |}]).
Proof. unfold onMouseDown. destruct (onClick props); reflexivity. Qed.

Lemma resetUserSelection_result w :
  resetUserSelection w =
  (tt,
   {| component :=
        {| prevSelectedNodesCount := 0;
           prevSelectedEdgesCount := 0;
           containerBounds := containerBounds (component w);
           userSelectionRect := initialRect |};
      store :=
        applyPatch {| patch_userSelectionActive := Some false;
                      patch_nodesSelectionActive := None |} (store w) |},
   [Call_setState {| patch_userSelectionActive := Some false;
                     patch_nodesSelectionActive := None |}]).
Proof. reflexivity. Qed.

Lemma onMouseUp_result w :
  onMouseUp w =
  (tt,
   {| component :=
        {| prevSelectedNodesCount := 0;
           prevSelectedEdgesCount := 0;
           containerBounds := containerBounds (component w);
           userSelectionRect := initialRect |};
      store :=
        applyPatch {| patch_userSelectionActive := Some false;
                      patch_nodesSelectionActive := None |}
          (applyPatch
             {| patch_userSelectionActive := None;
                patch_nodesSelectionActive :=
                  Some (0 <? prevSelectedNodesCount (component w))%nat |} (store w)) |},
   [Call_setState
      {| patch_userSelectionActive := None;
         patch_nodesSelectionActive :=
           Some (0 <? prevSelectedNodesCount (component w))%nat |};
    Call_setState {| patch_userSelectionActive := Some false;
                     patch_nodesSelectionActive := None |}]).
Proof. reflexivity. Qed.

Lemma onMouseLeave_result w :
  onMouseLeave w =
  (tt,
   {| component :=
        {| prevSelectedNodesCount := 0;
           prevSelectedEdgesCount := 0;
           containerBounds := containerBounds (component w);
           userSelectionRect := initialRect |};
      store :=
        applyPatch {| patch_userSelectionActive := Some false;
                      patch_nodesSelectionActive := None |}
          (applyPatch
             {| patch_userSelectionActive := None;
                patch_nodesSelectionActive := Some false |} (store w)) |},
   [Call_setState {| patch_userSelectionActive := None;
                     patch_nodesSelectionActive := Some false |};
    Call_setState {| patch_userSelectionActive := Some false;
                     patch_nodesSelectionActive := None |}]).
Proof. reflexivity. Qed.

(** C6: pointer-release sets nodes-selection-active to true exactly when the
    last recorded node count is positive, and then resets: the rectangle is
    [initialRect], selection-active is false, both counters are zero. *)
Theorem onMouseUp_signals_then_resets (w : World) :
  let r := onMouseUp w in
  (nodesSelectionActive (store (result_world r)) = true
   <-> (0 < prevSelectedNodesCount (component w))%nat) /\
  result_log r =
    [Call_setState
       {| patch_userSelectionActive := None;
          patch_nodesSelectionActive :=
            Some (0 <? prevSelectedNodesCount (component w))%nat |};
     Call_setState {| patch_userSelectionActive := Some false;
                      patch_nodesSelectionActive := None |}] /\
  userSelectionRect (component (result_world r)) = initialRect /\
  userSelectionActive (store (result_world r)) = false /\
  prevSelectedNodesCount (component (result_world r)) = 0%nat /\
  prevSelectedEdgesCount (component (result_world r)) = 0%nat.
Proof.
  intro r. subst r. rewrite onMouseUp_result. cbn -[Nat.ltb].
  split; [ apply Nat.ltb_lt | repeat split; reflexivity ].
Qed.

(** C1, amended: pointer-leave sets nodes-selection-active to false whatever
    the last recorded node count, and then resets like pointer-release: the
    rectangle is [initialRect], selection-active is false, both counters are
    zero. *)
Theorem onMouseLeave_clears_flag_then_resets (w : World) :
  let r := onMouseLeave w in
  nodesSelectionActive (store (result_world r)) = false /\
  result_log r =
    [Call_setState {| patch_userSelectionActive := None;
                      patch_nodesSelectionActive := Some false |};
     Call_setState {| patch_userSelectionActive := Some false;
                      patch_nodesSelectionActive := None |}] /\
  userSelectionRect (component (result_world r)) = initialRect /\
  userSelectionActive (store (result_world r)) = false /\
  prevSelectedNodesCount (component (result_world r)) = 0%nat /\
  prevSelectedEdgesCount (component (result_world r)) = 0%nat.
Proof.
  intro r. subst r. rewrite onMouseLeave_result. cbn.
  repeat split; reflexivity.
Qed.

(** C9: a pointer-press writes selection-active := true and
    nodes-selection-active := false in one [setState], its only store
    write. *)
Theorem onMouseDown_sets_both_flags props event (w : World) :
  let r := onMouseDown props event w in
  userSelectionActive (store (result_world r)) = true /\
  nodesSelectionActive (store (result_world r)) = false /\
  result_log r =
    match onClick props with Some h => [Call_onClick h event] | None => [] end
    ++ [Call_setState {| patch_userSelectionActive := Some true;
                         patch_nodesSelectionActive := Some false |}].
Proof.
  intro r. subst r. rewrite onMouseDown_result. cbn.
  repeat split; reflexivity.
Qed.

(** C5: a pointer-move changes nothing and calls nothing when the container
    bounds were never captured, or the rectangle is not being drawn, or, the
    selection key code not being a boolean, the key is not pressed. *)
Theorem onMouseMove_ignored props event (w : World) :
  containerBounds (component w) = None
  \/ draw (userSelectionRect (component w)) = false
  \/ (typeof_boolean (selectionKeyCode props) = false
      /\ selectionKeyPressed props = false) ->
  move props event w = (tt, w, []).
Proof.
  intro H. apply onMouseMove_returns_early.
  unfold moveReturnsEarly, undefined_bounds.
  destruct H as [-> | [-> | [-> ->]]]; cbn;
    repeat match goal with |- context [if ?b then _ else _] => destruct b end;
    rewrite ?orb_true_r; reflexivity.
Qed.

(** The log of a processed move holds diff computations and change batches
    only. *)
Lemma side_calls_are_batches (s : ReactFlowState) (pn pe : nat) (nids eids : list string) :
  Forall (fun c => externalEffect c = true -> changeBatch c = true)
    (nodeSideCalls getSelectionChanges_nodes s pn nids
     ++ edgeSideCalls getSelectionChanges_edges s pe eids).
Proof.
  apply Forall_app. unfold nodeSideCalls, edgeSideCalls. split.
  - destruct (negb _); [ | constructor ].
    constructor; [ cbn; congruence | ].
    destruct (nonempty _); [ destruct (onNodesChange s) | ]; repeat constructor.
  - destruct (negb _); [ | constructor ].
    constructor; [ cbn; congruence | ].
    destruct (nonempty _); [ destruct (onEdgesChange s) | ]; repeat constructor.
Qed.

(** C10: a pointer-move leaves the store as it is, the two boolean flags in
    particular, and of the calls it makes only the change batches have an
    effect outside the component. *)
Theorem onMouseMove_leaves_flags props event (w : World) :
  let r := move props event w in
  store (result_world r) = store w /\
  userSelectionActive (store (result_world r)) = userSelectionActive (store w) /\
  nodesSelectionActive (store (result_world r)) = nodesSelectionActive (store w) /\
  Forall (fun c => externalEffect c = true -> changeBatch c = true) (result_log r).
Proof.
  intro r. subst r.
  destruct (moveReturnsEarly props (component w)) eqn:E.
  - rewrite onMouseMove_returns_early by exact E. cbn. repeat split; constructor.
  - destruct (moveReturnsEarly_false _ _ E) as [_ [b B]].
    rewrite (onMouseMove_processed props event w b E B). cbn.
    repeat split. apply side_calls_are_batches.
Qed.

(** ** Sequences of inputs *)

Lemma run_cons i rest w :
  result_world (runI (i :: rest) w) = result_world (runI rest (result_world (handleI i w))).
Proof.
  unfold runI, handleI. cbn [run]. unfold bind, result_world.
  destruct (handle _ _ _ _ i w) as [[u w1] l1]. cbn [fst snd].
  destruct (run _ _ _ _ rest w1) as [[u2 w2] l2]. reflexivity.
Qed.

Lemma run_app l1 l2 w :
  result_world (runI (l1 ++ l2) w) = result_world (runI l2 (result_world (runI l1 w))).
Proof.
  revert w. induction l1 as [| i l1 IH]; intro w.
  - reflexivity.
  - cbn [app]. rewrite !run_cons. apply IH.
Qed.

(** What a move does to the component, whether it is processed or not. *)
Lemma onMouseMove_component props event w :
  let c := component w in
  let c' := component (result_world (move props event w)) in
  containerBounds c' = containerBounds c /\
  draw (userSelectionRect c') = draw (userSelectionRect c) /\
  startX (userSelectionRect c') = startX (userSelectionRect c) /\
  startY (userSelectionRect c') = startY (userSelectionRect c) /\
  (rectInvariant (userSelectionRect c) -> rectInvariant (userSelectionRect c')).
Proof.
  intros c c'. subst c c'.
  destruct (moveReturnsEarly props (component w)) eqn:E.
  - rewrite onMouseMove_returns_early by exact E. cbn. tauto.
  - destruct (moveReturnsEarly_false _ _ E) as [_ [b B]].
    rewrite (onMouseMove_processed props event w b E B). cbn.
    repeat split; auto; try apply Qabs_nonneg; apply conditional_le_start.
Qed.

(** The bounds, the draw flag and the anchor at the end of a stretch of moves
    and store changes are those at its beginning. *)
Lemma drag_keeps_anchor mid w :
  forallb duringDrag mid = true ->
  let c := component w in
  let c' := component (result_world (runI mid w)) in
  containerBounds c' = containerBounds c /\
  draw (userSelectionRect c') = draw (userSelectionRect c) /\
  startX (userSelectionRect c') = startX (userSelectionRect c) /\
  startY (userSelectionRect c') = startY (userSelectionRect c).
Proof.
  revert w. induction mid as [| i mid IH]; intros w D.
  - cbn. tauto.
  - cbn [forallb] in D. apply andb_true_iff in D. destruct D as [Di D].
    cbv zeta. rewrite run_cons.
    specialize (IH (result_world (handleI i w)) D). cbv zeta in IH.
    destruct IH as (-> & -> & -> & ->).
    destruct i; try discriminate Di; cbn [handleI handle].
    + destruct (onMouseMove_component props event w) as (? & ? & ? & ? & _). tauto.
    + cbn. tauto.
Qed.

(** C4: after a press at [press], whatever moves and store changes follow, a
    move at [event] that finds the selection enabled leaves the rectangle with
    x = min(startX, currentX), y = min(startY, currentY),
    width = |currentX - startX|, height = |currentY - startY|, the anchor
    being the press position and the current point the pointer position, both
    relative to the container box cached at the press. *)
Theorem rectangle_normalized (w0 : World) props0 press mid props event :
  forallb duringDrag mid = true ->
  typeof_boolean (selectionKeyCode props) || selectionKeyPressed props = true ->
  let bounds := closest_react_flow_bounds press in
  let start := getMousePosition press bounds in
  let current := getMousePosition event bounds in
  let r := userSelectionRect (component (result_world
             (runI (MouseDown props0 press :: mid ++ [MouseMove props event]) w0))) in
  x r = Qmin (pos_x start) (pos_x current) /\
  y r = Qmin (pos_y start) (pos_y current) /\
  width r = Qabs (pos_x current - pos_x start) /\
  height r = Qabs (pos_y current - pos_y start) /\
  startX r = pos_x start /\
  startY r = pos_y start.
Proof.
  intros D K bounds start current r. subst r.
  rewrite run_cons, run_app. cbn [handleI handle].
  set (w1 := result_world (onMouseDown props0 press w0)).
  destruct (drag_keeps_anchor mid w1 D) as (B & Dr & SX & SY).
  set (w2 := result_world (runI mid w1)) in *.
  unfold w1 in B, Dr, SX, SY. rewrite onMouseDown_result in B, Dr, SX, SY.
  cbn in B, Dr, SX, SY.
  rewrite run_cons. cbn [runI run ret result_world fst snd handleI handle].
  assert (E : moveReturnsEarly props (component w2) = false).
  { unfold moveReturnsEarly, undefined_bounds. rewrite B, Dr.
    destruct (typeof_boolean (selectionKeyCode props)); [ reflexivity | ].
    cbn in K. rewrite K. reflexivity. }
  fold move. rewrite (onMouseMove_processed props event w2 bounds E B).
  unfold result_world.
  cbn [fst snd component userSelectionRect nextUserSelectRect
       x y width height startX startY].
  rewrite !conditional_is_Qmin, SX, SY.
  repeat split; reflexivity.
Qed.

(** Every handler keeps the invariant of the rectangle. *)
Lemma handle_keeps_invariant i w :
  rectInvariant (userSelectionRect (component w)) ->
  rectInvariant (userSelectionRect (component (result_world (handleI i w)))).
Proof.
  intro I. destruct i; cbn [handleI handle].
  - rewrite onMouseDown_result. cbn.
    repeat split; apply Qle_refl.
  - apply onMouseMove_component, I.
  - rewrite onMouseUp_result. cbn. repeat split; apply Qle_refl.
  - rewrite onMouseLeave_result. cbn. repeat split; apply Qle_refl.
  - exact I.
Qed.

(** C8: from the initial component, after any sequence of presses, moves,
    releases, leaves and store changes, the rectangle has width >= 0,
    height >= 0, x <= startX and y <= startY. *)
Theorem rectangle_invariant (s : ReactFlowState) (inputs : list Input) :
  rectInvariant
    (userSelectionRect (component (result_world (runI inputs (initialWorld s))))).
Proof.
  assert (I0 : rectInvariant (userSelectionRect (component (initialWorld s)))).
  { cbn. repeat split; apply Qle_refl. }
  revert I0. generalize (initialWorld s).
  induction inputs as [| i rest IH]; intros w I.
  - exact I.
  - rewrite run_cons. apply IH, handle_keeps_invariant, I.
Qed.

Lemma run_keeps_bounds inputs w :
  forallb notPress inputs = true ->
  containerBounds (component (result_world (runI inputs w)))
  = containerBounds (component w).
Proof.
  revert w. induction inputs as [| i rest IH]; intros w N.
  - reflexivity.
  - cbn [forallb] in N. apply andb_true_iff in N. destruct N as [Ni N].
    rewrite run_cons, (IH _ N).
    destruct i; try discriminate Ni; cbn [handleI handle].
    + apply onMouseMove_component.
    + rewrite onMouseUp_result. reflexivity.
    + rewrite onMouseLeave_result. reflexivity.
    + reflexivity.
Qed.

(** C7, amended: the cached container bounds are never cleared.  Releases,
    leaves, moves and store changes leave them as they are, so the box
    recorded at a press stays stored after the interaction has ended, until
    the next press overwrites it with the box it finds. *)
Theorem containerBounds_kept_until_next_press (w : World) (inputs : list Input)
    props event :
  forallb notPress inputs = true ->
  let w' := result_world (runI inputs w) in
  containerBounds (component w') = containerBounds (component w) /\
  containerBounds (component (result_world (onMouseDown props event w')))
  = Some (closest_react_flow_bounds event).
Proof.
  intros N w'. split.
  - apply run_keeps_bounds, N.
  - rewrite onMouseDown_result. reflexivity.
Qed.

(** ** The count shortcut *)

(** The first processed tick of a drag: its log is that of a move made with
    the counts the refs held, and the rest of the drag starts with the refs
    holding the counts of this tick. *)
Lemma drag_first ticks : forall w o rest,
  dragI w ticks = o :: rest ->
  (exists s,
     calls o =
     nodeSideCalls getSelectionChanges_nodes s
       (prevSelectedNodesCount (component w)) (nodeIds o)
     ++ edgeSideCalls getSelectionChanges_edges s
          (prevSelectedEdgesCount (component w)) (edgeIds o)) /\
  (exists w' ticks',
     rest = dragI w' ticks' /\
     prevSelectedNodesCount (component w') = List.length (nodeIds o) /\
     prevSelectedEdgesCount (component w') = List.length (edgeIds o)).
Proof.
  induction ticks as [| t ts IH]; intros w o rest H.
  - discriminate H.
  - unfold dragI in H. cbn [drag] in H.
    set (w1 := {| component := component w; store := tick_store t |}) in H.
    fold move in H.
    destruct (moveReturnsEarly (tick_props t) (component w1)) eqn:E.
    + rewrite (onMouseMove_returns_early _ _ _ E) in H.
      apply (IH w1 o rest H).
    + destruct (moveReturnsEarly_false _ _ E) as [_ [b B]].
      rewrite B in H.
      rewrite (onMouseMove_processed (tick_props t) (tick_event t) w1 b E B) in H.
      injection H as <- <-. cbn. split.
      * exists (tick_store t). reflexivity.
      * eexists. exists ts. split; [ reflexivity | split; reflexivity ].
Qed.

Lemma no_node_calls_when_count_kept s pe (nids eids : list string) :
  filter nodeCategory
    (nodeSideCalls getSelectionChanges_nodes s (List.length nids) nids
     ++ edgeSideCalls getSelectionChanges_edges s pe eids) = [].
Proof.
  unfold nodeSideCalls, edgeSideCalls. rewrite Nat.eqb_refl. cbn [negb app].
  destruct (negb _); [ | reflexivity ].
  destruct (nonempty _); [ destruct (onEdgesChange s) | ]; reflexivity.
Qed.

Lemma no_edge_calls_when_count_kept s pn (nids eids : list string) :
  filter edgeCategory
    (nodeSideCalls getSelectionChanges_nodes s pn nids
     ++ edgeSideCalls getSelectionChanges_edges s (List.length eids) eids) = [].
Proof.
  unfold nodeSideCalls, edgeSideCalls. rewrite Nat.eqb_refl. cbn [negb].
  rewrite app_nil_r.
  destruct (negb _); [ | reflexivity ].
  destruct (nonempty _); [ destruct (onNodesChange s) | ]; reflexivity.
Qed.

(** C3: of two consecutive processed ticks of a drag, if the second selects
    as many nodes as the first, it neither computes a node diff nor emits a
    node batch, whatever the ids are; and the same for the edges. *)
Theorem count_shortcut_skips_diff (w : World) (ticks : list Tick) (i : nat)
    (o1 o2 : Processed) :
  nth_error (dragI w ticks) i = Some o1 ->
  nth_error (dragI w ticks) (S i) = Some o2 ->
  (List.length (nodeIds o2) = List.length (nodeIds o1) ->
   filter nodeCategory (calls o2) = []) /\
  (List.length (edgeIds o2) = List.length (edgeIds o1) ->
   filter edgeCategory (calls o2) = []).
Proof.
  revert w ticks. induction i as [| i IH]; intros w ticks H1 H2.
  - destruct (dragI w ticks) as [| o rest] eqn:D; [ discriminate H1 | ].
    cbn in H1, H2. injection H1 as ->.
    destruct (drag_first _ _ _ _ D) as [_ (w' & ticks' & -> & Pn & Pe)].
    destruct (dragI w' ticks') as [| o rest'] eqn:D'; [ discriminate H2 | ].
    cbn in H2. injection H2 as ->.
    destruct (drag_first _ _ _ _ D') as [[s ->] _].
    rewrite Pn, Pe. split; intros <-.
    + apply no_node_calls_when_count_kept.
    + apply no_edge_calls_when_count_kept.
  - destruct (dragI w ticks) as [| o rest] eqn:D; [ discriminate H1 | ].
    destruct (drag_first _ _ _ _ D) as [_ (w' & ticks' & -> & _)].
    exact (IH w' ticks' H1 H2).
Qed.

(** ** Idle or anchored *)

Lemma handle_keeps_idleOrAnchored i w :
  idleOrAnchored (component w) ->
  idleOrAnchored (component (result_world (handleI i w))).
Proof.
  intros [Idle Anch]. destruct i; cbn [handleI handle].
  - rewrite onMouseDown_result. split; cbn; intro H; [ discriminate H | discriminate ].
  - fold move. destruct (moveReturnsEarly props (component w)) eqn:E.
    + rewrite onMouseMove_returns_early by exact E. split; assumption.
    + destruct (moveReturnsEarly_false _ _ E) as [Dr [b B]].
      rewrite (onMouseMove_processed props event w b E B).
      split; cbn; intro H; [ congruence | discriminate ].
  - rewrite onMouseUp_result. split; cbn; intro H; [ auto | discriminate H ].
  - rewrite onMouseLeave_result. split; cbn; intro H; [ auto | discriminate H ].
  - split; assumption.
Qed.

Lemma run_keeps_idleOrAnchored inputs : forall w,
  idleOrAnchored (component w) ->
  idleOrAnchored (component (result_world (runI inputs w))).
Proof.
  induction inputs as [| i rest IH]; intros w I.
  - exact I.
  - rewrite run_cons. apply IH, handle_keeps_idleOrAnchored, I.
Qed.

Lemma initial_idleOrAnchored s : idleOrAnchored (component (initialWorld s)).
Proof. split; cbn; intro H; [ auto | discriminate H ]. Qed.

(** X1: from the initial component, after any sequence of inputs, either the
    rectangle is not being drawn, and then it is [initialRect] and both
    counters are 0, or it is being drawn, and then the container box is
    cached. *)
Theorem reachable_idle_or_anchored (s : ReactFlowState) (inputs : list Input) :
  idleOrAnchored (component (result_world (runI inputs (initialWorld s)))).
Proof. apply run_keeps_idleOrAnchored, initial_idleOrAnchored. Qed.

(** X2: in a reachable state the test of the cached bounds in [onMouseMove]
    decides nothing: a move is returned from early exactly when the rectangle
    is not being drawn or, the key code not being a boolean, the key is not
    pressed. *)
Theorem reachable_move_guard (s : ReactFlowState) (inputs : list Input) props :
  let c := component (result_world (runI inputs (initialWorld s))) in
  moveReturnsEarly props c
  = negb (draw (userSelectionRect c))
    || (negb (typeof_boolean (selectionKeyCode props))
        && negb (selectionKeyPressed props)).
Proof.
  intro c. pose proof (run_keeps_idleOrAnchored inputs _ (initial_idleOrAnchored s)) as [_ Anch].
  fold c in Anch. unfold moveReturnsEarly, undefined_bounds.
  destruct (draw (userSelectionRect c)).
  - destruct (containerBounds c); [ | exfalso; apply Anch; reflexivity ].
    destruct (typeof_boolean _), (selectionKeyPressed props); reflexivity.
  - destruct (typeof_boolean _), (selectionKeyPressed props); reflexivity.
Qed.

(** ** The geometry of the rectangle *)





(** ** What a move calls *)

(** X5: a move never passes an empty batch to a change handler, and it calls
    no other handler than the one the store holds. *)
Theorem batches_nonempty_and_registered props event (w : World) :
  Forall (wellAddressed (store w)) (result_log (move props event w)).
Proof.
  destruct (moveReturnsEarly props (component w)) eqn:E.
  - rewrite onMouseMove_returns_early by exact E. constructor.
  - destruct (moveReturnsEarly_false _ _ E) as [_ [b B]].
    rewrite (onMouseMove_processed props event w b E B).
    unfold result_log; cbn [snd]. apply Forall_app.
    unfold nodeSideCalls, edgeSideCalls. split.
    + destruct (negb _); [ | constructor ].
      constructor; [ exact I | ].
      destruct (nonempty _) eqn:N; [ | constructor ].
      destruct (onNodesChange (store w)) eqn:H; [ | constructor ].
      constructor; [ | constructor ].
      split; [ | exact H ]. intro Z. rewrite Z in N. discriminate N.
    + destruct (negb _); [ | constructor ].
      constructor; [ exact I | ].
      destruct (nonempty _) eqn:N; [ | constructor ].
      destruct (onEdgesChange (store w)) eqn:H; [ | constructor ].
      constructor; [ | constructor ].
      split; [ | exact H ]. intro Z. rewrite Z in N. discriminate N.
Qed.

(** X6: the change batches of one move are at most one node batch followed by
    at most one edge batch. *)
Theorem at_most_one_batch_each props event (w : World) :
  exists nodeBatches edgeBatches,
    filter changeBatch (result_log (move props event w)) = nodeBatches ++ edgeBatches
    /\ (List.length nodeBatches <= 1)%nat
    /\ (List.length edgeBatches <= 1)%nat
    /\ Forall (fun c => nodeCategory c = true) nodeBatches
    /\ Forall (fun c => edgeCategory c = true) edgeBatches.
Proof.
  destruct (moveReturnsEarly props (component w)) eqn:E.
  - rewrite onMouseMove_returns_early by exact E.
    exists [], []. cbn. repeat split; auto.
  - destruct (moveReturnsEarly_false _ _ E) as [_ [b B]].
    rewrite (onMouseMove_processed props event w b E B).
    unfold result_log; cbn [snd]. rewrite filter_app.
    eexists. eexists. split; [ reflexivity | ].
    unfold nodeSideCalls, edgeSideCalls.
    repeat split.
    + destruct (negb _); [ | cbn; lia ].
      destruct (nonempty _); [ destruct (onNodesChange (store w)) | ]; cbn; lia.
    + destruct (negb _); [ | cbn; lia ].
      destruct (nonempty _); [ destruct (onEdgesChange (store w)) | ]; cbn; lia.
    + destruct (negb _); [ | constructor ].
      destruct (nonempty _); [ destruct (onNodesChange (store w)) | ];
        cbn; repeat constructor.
    + destruct (negb _); [ | constructor ].
      destruct (nonempty _); [ destruct (onEdgesChange (store w)) | ];
        cbn; repeat constructor.
Qed.

(** X7: a move repeated at once, the store being as it was, changes nothing
    and calls nothing. *)
Theorem repeated_move_is_silent props event (w : World) :
  let w1 := result_world (move props event w) in
  move props event w1 = (tt, w1, []).
Proof.
  cbv zeta. destruct (moveReturnsEarly props (component w)) eqn:E.
  - rewrite (onMouseMove_returns_early props event w E). cbn [result_world fst snd].
    apply onMouseMove_returns_early, E.
  - destruct (moveReturnsEarly_false _ _ E) as [Dr [b B]].
    rewrite (onMouseMove_processed props event w b E B).
    unfold result_world; cbn [fst snd].
    match goal with |- move _ _ ?w1 = _ => set (w1' := w1) end.
    assert (E1 : moveReturnsEarly props (component w1') = false).
    { unfold moveReturnsEarly in E |- *. cbn. rewrite B in E. exact E. }
    rewrite (onMouseMove_processed props event w1' b E1 eq_refl).
    unfold w1'. cbn [component store userSelectionRect prevSelectedNodesCount
                     prevSelectedEdgesCount].
    replace (nextUserSelectRect
               (nextUserSelectRect (userSelectionRect (component w))
                  (getMousePosition event b)) (getMousePosition event b))
      with (nextUserSelectRect (userSelectionRect (component w))
              (getMousePosition event b)) by reflexivity.
    unfold nodeSideCalls, edgeSideCalls. rewrite !Nat.eqb_refl. reflexivity.
Qed.

(** ** Moves, presses and releases together *)

Lemma run_nil w : result_world (runI [] w) = w.
Proof. reflexivity. Qed.

Lemma nonempty_length {A} (l : list A) : (0 <? List.length l)%nat = true <-> l <> [].
Proof.
  destruct l; cbn; split; intro H; congruence.
Qed.

(** X8: a release that follows a processed move sets nodes-selection-active
    to true exactly when that move found a node in its rectangle. *)
Theorem release_reports_last_move props event (w : World) bounds :
  moveReturnsEarly props (component w) = false ->
  containerBounds (component w) = Some bounds ->
  let next := nextUserSelectRect (userSelectionRect (component w))
                (getMousePosition event bounds) in
  nodesSelectionActive
    (store (result_world (runI [MouseMove props event; MouseUp] w))) = true
  <-> nodeIdsOf (store w) next <> [].
Proof.
  intros E B next.
  rewrite !run_cons, run_nil. cbn [handleI handle]. fold move.
  rewrite (onMouseMove_processed props event w bounds E B).
  rewrite onMouseUp_result.
  unfold result_world. cbn -[Nat.ltb]. apply nonempty_length.
Qed.

(** X9: a click, that is a press in a reachable state where nothing is being
    drawn followed at once by a release, leaves nodes-selection-active false,
    whatever the press did to the store. *)
Theorem click_selects_nothing (s : ReactFlowState) (inputs : list Input) props event :
  let w := result_world (runI inputs (initialWorld s)) in
  draw (userSelectionRect (component w)) = false ->
  nodesSelectionActive
    (store (result_world (runI [MouseDown props event; MouseUp] w))) = false.
Proof.
  intros w D.
  pose proof (run_keeps_idleOrAnchored inputs _ (initial_idleOrAnchored s)) as [Idle _].
  fold w in Idle. destruct (Idle D) as (_ & Pn & _).
  rewrite !run_cons, run_nil. cbn [handleI handle].
  rewrite onMouseDown_result, onMouseUp_result.
  unfold result_world. cbn -[Nat.ltb]. rewrite Pn. reflexivity.
Qed.

(** X10: a drag during which no processed tick finds a node, begun with the
    node counter at 0, computes no node diff and emits no node batch: nodes
    selected before the drag are not deselected by it.  Likewise for the
    edges. *)
Theorem empty_drag_is_silent (w : World) (ticks : list Tick) :
  (prevSelectedNodesCount (component w) = 0%nat ->
   Forall (fun o => nodeIds o = []) (dragI w ticks) ->
   Forall (fun o => filter nodeCategory (calls o) = []) (dragI w ticks))
  /\ (prevSelectedEdgesCount (component w) = 0%nat ->
      Forall (fun o => edgeIds o = []) (dragI w ticks) ->
      Forall (fun o => filter edgeCategory (calls o) = []) (dragI w ticks)).
Proof.
  remember (dragI w ticks) as outcomes eqn:D.
  revert w ticks D.
  induction outcomes as [| o rest IH]; intros w ticks D.
  - split; intros; constructor.
  - symmetry in D.
    destruct (drag_first _ _ _ _ D) as [[s C] (w' & ticks' & R & Pn & Pe)].
    destruct (IH w' ticks' R) as [IHn IHe].
    split; intros P0 F; inversion F as [| ? ? Ho Frest]; subst; constructor.
    + rewrite C, P0, Ho.
      apply (no_node_calls_when_count_kept s _ [] (edgeIds o)).
    + apply IHn; [ rewrite Pn, Ho; reflexivity | exact Frest ].
    + rewrite C, P0, Ho.
      apply (no_edge_calls_when_count_kept s _ (nodeIds o) []).
    + apply IHe; [ rewrite Pe, Ho; reflexivity | exact Frest ].
Qed.

Lemma onMouseMove_store props event w :
  store (result_world (move props event w)) = store w.
Proof.
  destruct (moveReturnsEarly props (component w)) eqn:E.
  - rewrite (onMouseMove_returns_early props event w E). reflexivity.
  - destruct (moveReturnsEarly_false _ _ E) as [_ [b B]].
    rewrite (onMouseMove_processed props event w b E B). reflexivity.
Qed.


(** X12: as long as nobody else writes the store, selection-active mirrors
    the draw flag of the rectangle, and nodes-selection-active is false while
    the rectangle is being drawn. *)
Theorem flags_track_drawing (s : ReactFlowState) (inputs : list Input) :
  forallb notStoreChange inputs = true ->
  userSelectionActive s = false ->
  let w := result_world (runI inputs (initialWorld s)) in
  userSelectionActive (store w) = draw (userSelectionRect (component w))
  /\ (draw (userSelectionRect (component w)) = true ->
      nodesSelectionActive (store w) = false).
Proof.
  intros N A0. cbv zeta.
  assert (I0 : userSelectionActive (store (initialWorld s))
               = draw (userSelectionRect (component (initialWorld s)))
               /\ (draw (userSelectionRect (component (initialWorld s))) = true ->
                   nodesSelectionActive (store (initialWorld s)) = false)).
  { cbn. split; [ exact A0 | discriminate ]. }
  revert I0. generalize (initialWorld s). clear A0.
  induction inputs as [| i rest IH]; intros w I.
  - exact I.
  - cbn [forallb] in N. apply andb_true_iff in N. destruct N as [Ni N].
    rewrite run_cons. apply (IH N). clear IH.
    destruct I as [A Off].
    destruct i; try discriminate Ni; cbn [handleI handle].
    + rewrite onMouseDown_result. cbn. split; reflexivity.
    + fold move. rewrite onMouseMove_store.
      destruct (onMouseMove_component props event w) as (_ & -> & _).
      split; assumption.
    + rewrite onMouseUp_result. cbn. split; [ reflexivity | discriminate ].
    + rewrite onMouseLeave_result. cbn. split; [ reflexivity | discriminate ].
Qed.

(** ** What is on the screen *)

Lemma run_keeps_rectInvariant inputs : forall w,
  rectInvariant (userSelectionRect (component w)) ->
  rectInvariant (userSelectionRect (component (result_world (runI inputs w)))).
Proof.
  induction inputs as [| i rest IH]; intros w I.
  - exact I.
  - rewrite run_cons. apply IH, handle_keeps_invariant, I.
Qed.

(** X13: whenever, in a reachable state, the component renders the selection
    rectangle, its style has a width and a height that are not negative, and
    it is translated to a point that is not past the anchor. *)
Theorem rendered_rectangle_is_proper (s : ReactFlowState) (inputs : list Input)
    props view style :
  let w := result_world (runI inputs (initialWorld s)) in
  render props (store w) (component w) = Some view ->
  pane_selection view = Some style ->
  0 <= style_width style /\ 0 <= style_height style
  /\ translate_x style <= startX (userSelectionRect (component w))
  /\ translate_y style <= startY (userSelectionRect (component w)).
Proof.
  intros w R S.
  assert (I : rectInvariant (userSelectionRect (component w))).
  { apply run_keeps_rectInvariant. cbn. repeat split; apply Qle_refl. }
  unfold render in R.
  destruct (negb _ && _); [ discriminate R | ].
  injection R as <-. cbn in S.
  destruct (draw (userSelectionRect (component w))); [ | discriminate S ].
  injection S as <-. exact I.
Qed.

(** X14: after a release, and after a leave, no selection rectangle is
    rendered and the pane is not marked active; the pane itself is rendered
    unless, the key code not being a boolean, the elements are not selectable
    or the key is not pressed. *)
Theorem nothing_drawn_after_release props (w : World) :
  let idle :=
    if negb (typeof_boolean (selectionKeyCode props))
       && (negb (elementsSelectable (store w)) || negb (selectionKeyPressed props))
    then None
    else Some {| pane_className := "react-flow__selectionpane react-flow__container";
                 pane_selection := None |} in
  render props (store (result_world (onMouseUp w)))
    (component (result_world (onMouseUp w))) = idle
  /\ render props (store (result_world (onMouseLeave w)))
       (component (result_world (onMouseLeave w))) = idle.
Proof.
  cbv zeta. rewrite onMouseUp_result, onMouseLeave_result.
  unfold render, renderUserSelectionPane, result_world. cbn.
  destruct (typeof_boolean _), (elementsSelectable (store w)),
    (selectionKeyPressed props); split; reflexivity.
Qed.

(** X15: when the selection key is released in the middle of a drag (the key
    code not being a boolean), the pane stays rendered, marked active, with
    the rectangle as it was, and moves no longer change what is rendered. *)
Theorem released_key_freezes_rectangle props event (w : World) :
  typeof_boolean (selectionKeyCode props) = false ->
  selectionKeyPressed props = false ->
  elementsSelectable (store w) = true ->
  userSelectionActive (store w) = true ->
  draw (userSelectionRect (component w)) = true ->
  let w1 := result_world (move props event w) in
  render props (store w) (component w)
  = Some {| pane_className := "react-flow__selectionpane react-flow__container active";
            pane_selection :=
              Some {| style_width := width (userSelectionRect (component w));
                      style_height := height (userSelectionRect (component w));
                      translate_x := x (userSelectionRect (component w));
                      translate_y := y (userSelectionRect (component w)) |} |}
  /\ render props (store w1) (component w1) = render props (store w) (component w).
Proof.
  intros K P S A D w1. split.
  - unfold render, renderUserSelectionPane. rewrite K, S, A, D. reflexivity.
  - subst w1. rewrite onMouseMove_returns_early; [ reflexivity | ].
    unfold moveReturnsEarly. rewrite K, P. reflexivity.
Qed.

End Facts.

(** ** The concrete drag *)

Example pressed_component :
  component pressed =
  {| prevSelectedNodesCount := 0;
     prevSelectedEdgesCount := 0;
     containerBounds := Some demoBounds;
     userSelectionRect :=
       {| startX := 160 - 100; startY := 55 - 50; x := 160 - 100; y := 55 - 50;
          width := 0; height := 0; draw := true |} |}.
Proof. reflexivity. Qed.

Example draggedOverA_counts :
  prevSelectedNodesCount (component draggedOverA) = 1%nat /\
  prevSelectedEdgesCount (component draggedOverA) = 1%nat /\
  draw (userSelectionRect (component draggedOverA)) = true.
Proof. vm_compute. repeat split. Qed.

Example demoDrag_ids :
  map nodeIds demoDrag = [["a"%string]; ["b"%string]] /\
  map edgeIds demoDrag = [["a-b"%string]; ["a-b"%string]].
Proof. vm_compute. split; reflexivity. Qed.

(** The first tick announces [a] and the edge; the second is silent. *)
Example demoDrag_ticks : demoDrag = [tickOverA; tickOverB].
Proof. vm_compute. reflexivity. Qed.

(** C1, as stated, fails: after the drag over [a] the count is 1 and a
    pointer-leave sets nodes-selection-active to false. *)
Lemma onMouseLeave_ignores_count : ~ leaveSignalsByCount draggedOverA.
Proof.
  unfold leaveSignalsByCount. intros [_ H].
  assert (P : (0 < prevSelectedNodesCount (component draggedOverA))%nat).
  { vm_compute. constructor. }
  specialize (H P). vm_compute in H. discriminate H.
Qed.

(** C7, as stated, fails: after the drag over [a], neither a release nor a
    leave clears the cached container bounds. *)
Lemma bounds_survive_release_and_leave :
  ~ boundsClearedBy onMouseUp draggedOverA /\
  ~ boundsClearedBy onMouseLeave draggedOverA.
Proof.
  unfold boundsClearedBy. split; intro H; vm_compute in H; discriminate H.
Qed.

Lemma containerBounds_kept_witness :
  forallb notPress [MouseMove keyHeld overA; MouseUp] = true /\
  containerBounds
    (component (result_world (demoRun [MouseMove keyHeld overA; MouseUp] pressed)))
  = containerBounds (component pressed) /\
  containerBounds
    (component (result_world
       (onMouseDown alwaysOn overB
          (result_world (demoRun [MouseMove keyHeld overA; MouseUp] pressed)))))
  = Some (closest_react_flow_bounds overB).
Proof.
  split; [ reflexivity | ].
  apply (containerBounds_kept_until_next_press
           (getNodesInside_spec fullWhenSet) getConnectedEdges_spec
           (getSelectionChanges_spec node_id node_selected)
           (getSelectionChanges_spec edge_id edge_selected)
           pressed [MouseMove keyHeld overA; MouseUp] alwaysOn overB).
  reflexivity.
Defined.

Lemma onMouseMove_ignored_witness :
  (containerBounds (component (initialWorld demoStore)) = None /\
   onMouseMove_spec fullWhenSet alwaysOn overA (initialWorld demoStore)
   = (tt, initialWorld demoStore, [])) /\
  (draw (userSelectionRect (component released)) = false /\
   onMouseMove_spec fullWhenSet keyHeld overB released = (tt, released, [])) /\
  (typeof_boolean (selectionKeyCode keyReleased) = false /\
   selectionKeyPressed keyReleased = false /\
   onMouseMove_spec fullWhenSet keyReleased overB draggedOverA
   = (tt, draggedOverA, [])).
Proof.
  split; [ | split ].
  - split; [ reflexivity | ].
    apply (onMouseMove_ignored
             (getNodesInside_spec fullWhenSet) getConnectedEdges_spec
             (getSelectionChanges_spec node_id node_selected)
             (getSelectionChanges_spec edge_id edge_selected)
             alwaysOn overA (initialWorld demoStore)).
    left. reflexivity.
  - split; [ reflexivity | ].
    apply (onMouseMove_ignored
             (getNodesInside_spec fullWhenSet) getConnectedEdges_spec
             (getSelectionChanges_spec node_id node_selected)
             (getSelectionChanges_spec edge_id edge_selected)
             keyHeld overB released).
    right. left. reflexivity.
  - split; [ reflexivity | split; [ reflexivity | ] ].
    apply (onMouseMove_ignored
             (getNodesInside_spec fullWhenSet) getConnectedEdges_spec
             (getSelectionChanges_spec node_id node_selected)
             (getSelectionChanges_spec edge_id edge_selected)
             keyReleased overB draggedOverA).
    right. right. split; reflexivity.
Defined.

Lemma rectangle_normalized_witness :
  forallb duringDrag [MouseMove keyHeld overA; StoreChange demoStoreA] = true /\
  typeof_boolean (selectionKeyCode keyHeld) || selectionKeyPressed keyHeld = true /\
  let r := userSelectionRect (component (result_world
             (demoRun (MouseDown keyHeld pressEvent
                       :: [MouseMove keyHeld overA; StoreChange demoStoreA]
                          ++ [MouseMove keyHeld overB])
                (initialWorld demoStore)))) in
  x r = Qmin (160 - 100) (225 - 100) /\
  y r = Qmin (55 - 50) (75 - 50) /\
  width r = Qabs ((225 - 100) - (160 - 100)) /\
  height r = Qabs ((75 - 50) - (55 - 50)) /\
  startX r = 160 - 100 /\
  startY r = 55 - 50.
Proof.
  split; [ reflexivity | split; [ reflexivity | ] ].
  apply (rectangle_normalized
           (getNodesInside_spec fullWhenSet) getConnectedEdges_spec
           (getSelectionChanges_spec node_id node_selected)
           (getSelectionChanges_spec edge_id edge_selected)
           (initialWorld demoStore) keyHeld pressEvent
           [MouseMove keyHeld overA; StoreChange demoStoreA] keyHeld overB);
    reflexivity.
Defined.

(** Between the two ticks of the concrete drag the selected node changes from
    [a] to [b] and the count stays 1: the second tick computes and emits
    nothing, and [a] stays announced as selected. *)
Lemma count_shortcut_witness :
  nth_error demoDrag 0 = Some tickOverA /\
  nth_error demoDrag 1 = Some tickOverB /\
  nodeIds tickOverA <> nodeIds tickOverB /\
  filter nodeCategory (calls tickOverB) = [] /\
  filter edgeCategory (calls tickOverB) = [].
Proof.
  assert (HA : nth_error demoDrag 0 = Some tickOverA) by (vm_compute; reflexivity).
  assert (HB : nth_error demoDrag 1 = Some tickOverB) by (vm_compute; reflexivity).
  split; [ exact HA | split; [ exact HB | split; [ discriminate | ] ] ].
  destruct (count_shortcut_skips_diff
              (getNodesInside_spec fullWhenSet) getConnectedEdges_spec
              (getSelectionChanges_spec node_id node_selected)
              (getSelectionChanges_spec edge_id edge_selected)
              pressed demoTicks 0 tickOverA tickOverB HA HB) as [Hn He].
  split; [ apply Hn | apply He ]; reflexivity.
Defined.

(** ** The hit test and the flags of the call

    The move calls [getNodesInside] with the flags [false, true].  Whether a
    node that only straddles the rectangle is selected depends on how the
    fourth flag selects the mode, which neither the sources at hand nor the
    spec settle. *)

Lemma straddling_node_when_flag_means_full :
  selectedNodeIdsOf (getNodesInside_spec fullWhenSet) straddleStore
    (userSelectionRect (component draggedOverA))
  = ["a"%string; "c"%string].
Proof. vm_compute. reflexivity. Qed.

Lemma straddling_node_when_flag_means_partial :
  selectedNodeIdsOf (getNodesInside_spec partialWhenSet) straddleStore
    (userSelectionRect (component draggedOverA))
  = ["a"%string].
Proof. vm_compute. reflexivity. Qed.

(** ** The further properties on the concrete drag *)

Lemma release_reports_last_move_witness :
  moveReturnsEarly keyHeld (component pressed) = false /\
  containerBounds (component pressed) = Some demoBounds /\
  nodesSelectionActive
    (store (result_world (demoRun [MouseMove keyHeld overA; MouseUp] pressed))) = true.
Proof.
  split; [ reflexivity | split; [ reflexivity | ] ].
  apply (release_reports_last_move
           (getNodesInside_spec fullWhenSet) getConnectedEdges_spec
           (getSelectionChanges_spec node_id node_selected)
           (getSelectionChanges_spec edge_id edge_selected)
           keyHeld overA pressed demoBounds eq_refl eq_refl).
  vm_compute. discriminate.
Defined.

Lemma click_selects_nothing_witness :
  draw (userSelectionRect
          (component (result_world (demoRun demoInteraction (initialWorld demoStore)))))
  = false /\
  nodesSelectionActive
    (store (result_world (demoRun demoInteraction (initialWorld demoStore)))) = true /\
  nodesSelectionActive
    (store (result_world
       (demoRun [MouseDown keyHeld overB; MouseUp]
          (result_world (demoRun demoInteraction (initialWorld demoStore)))))) = false.
Proof.
  split; [ vm_compute; reflexivity | split; [ vm_compute; reflexivity | ] ].
  apply (click_selects_nothing
           (getNodesInside_spec fullWhenSet) getConnectedEdges_spec
           (getSelectionChanges_spec node_id node_selected)
           (getSelectionChanges_spec edge_id edge_selected)
           demoStore demoInteraction keyHeld overB).
  vm_compute. reflexivity.
Defined.

Lemma empty_drag_is_silent_witness :
  List.length emptyDrag = 2%nat /\
  prevSelectedNodesCount (component pressed) = 0%nat /\
  Forall (fun o => nodeIds o = []) emptyDrag /\
  Forall (fun o => filter nodeCategory (calls o) = []) emptyDrag.
Proof.
  assert (F : Forall (fun o => nodeIds o = []) emptyDrag).
  { vm_compute. repeat constructor. }
  split; [ vm_compute; reflexivity | split; [ reflexivity | split; [ exact F | ] ] ].
  apply (proj1 (empty_drag_is_silent
                  (getNodesInside_spec fullWhenSet) getConnectedEdges_spec
                  (getSelectionChanges_spec node_id node_selected)
                  (getSelectionChanges_spec edge_id edge_selected)
                  pressed emptyTicks)); [ reflexivity | exact F ].
Defined.


Lemma flags_track_drawing_witness :
  forallb notStoreChange [MouseDown keyHeld pressEvent; MouseMove keyHeld overA] = true /\
  userSelectionActive demoStore = false /\
  userSelectionActive (store draggedOverA)
  = draw (userSelectionRect (component draggedOverA)) /\
  (draw (userSelectionRect (component draggedOverA)) = true ->
   nodesSelectionActive (store draggedOverA) = false).
Proof.
  split; [ reflexivity | split; [ reflexivity | ] ].
  apply (flags_track_drawing
           (getNodesInside_spec fullWhenSet) getConnectedEdges_spec
           (getSelectionChanges_spec node_id node_selected)
           (getSelectionChanges_spec edge_id edge_selected)
           demoStore [MouseDown keyHeld pressEvent; MouseMove keyHeld overA]);
    reflexivity.
Defined.

Lemma rendered_rectangle_is_proper_witness :
  render keyHeld (store draggedOverA) (component draggedOverA)
  = Some {| pane_className := "react-flow__selectionpane react-flow__container active";
            pane_selection :=
              Some {| style_width := 55; style_height := 20;
                      translate_x := 5; translate_y := 5 |} |} /\
  0 <= 55 /\ 0 <= 20
  /\ 5 <= startX (userSelectionRect (component draggedOverA))
  /\ 5 <= startY (userSelectionRect (component draggedOverA)).
Proof.
  split; [ vm_compute; reflexivity | ].
  apply (rendered_rectangle_is_proper
           (getNodesInside_spec fullWhenSet) getConnectedEdges_spec
           (getSelectionChanges_spec node_id node_selected)
           (getSelectionChanges_spec edge_id edge_selected)
           demoStore [MouseDown keyHeld pressEvent; MouseMove keyHeld overA] keyHeld
           {| pane_className := "react-flow__selectionpane react-flow__container active";
              pane_selection :=
                Some {| style_width := 55; style_height := 20;
                        translate_x := 5; translate_y := 5 |} |}
           {| style_width := 55; style_height := 20;
              translate_x := 5; translate_y := 5 |});
    [ vm_compute; reflexivity | reflexivity ].
Defined.

Lemma released_key_freezes_rectangle_witness :
  typeof_boolean (selectionKeyCode keyReleased) = false /\
  selectionKeyPressed keyReleased = false /\
  elementsSelectable (store draggedOverA) = true /\
  userSelectionActive (store draggedOverA) = true /\
  draw (userSelectionRect (component draggedOverA)) = true /\
  render keyReleased
    (store (result_world (onMouseMove_spec fullWhenSet keyReleased overB draggedOverA)))
    (component (result_world (onMouseMove_spec fullWhenSet keyReleased overB draggedOverA)))
  = render keyReleased (store draggedOverA) (component draggedOverA).
Proof.
  repeat (split; [ reflexivity | ]).
  apply (released_key_freezes_rectangle
           (getNodesInside_spec fullWhenSet) getConnectedEdges_spec
           (getSelectionChanges_spec node_id node_selected)
           (getSelectionChanges_spec edge_id edge_selected)
           keyReleased overB draggedOverA); reflexivity.
Defined.
